(** * Response classification in the two Locust load-test scripts

    [src/testing-hw6/locustfile.py] : [ProductSearchUser.search], one task
    that sends a search request and validates the response itself
    ([catch_response=True]).

    [src/testing/locustfile.py] : [SimpleEStoreUser], eight tasks that send
    one fixed request each and leave the classification to the HTTP client.

    The HTTP server is the environment: a task is a function of the
    response the server gives to the request the task sends. *)

From Stdlib Require Import ZArith List String Ascii Bool Lia.
From Stdlib Require Import DecimalString.
From Stdlib Require Import SpecFloat.
Import ListNotations.
Set Warnings "-register-all".
Local Open Scope string_scope.
Local Open Scope Z_scope.

(** ** Python values *)

(** The values [json.loads] produces, which are also the values the scripts
    write as literals: [None], [bool], [int] (unbounded), [float] (binary64,
    with the [NaN] and [Infinity] literals [json.loads] accepts), [str],
    [list], and [dict] with string keys.  A [dict] keeps its insertion order
    and is read through [dict_get] and [dict_in] only. *)
Inductive pyval : Type :=
| PyNone
| PyBool (b : bool)
| PyInt (z : Z)
| PyFloat (f : spec_float)
| PyStr (s : string)
| PyList (l : list pyval)
| PyDict (d : list (string * pyval)).

Definition pydict : Type := list (string * pyval).

(** [d.get(k)] before the default is applied: the value bound to [k]. *)
Fixpoint dict_get (d : pydict) (k : string) : option pyval :=
  match d with
  | [] => None
  | (k', v) :: d' => if String.eqb k k' then Some v else dict_get d' k
  end.

(** [d.get(k, default)]; [d.get(k)] is [dict_get_default d k PyNone]. *)
Definition dict_get_default (d : pydict) (k : string) (default : pyval) : pyval :=
  match dict_get d k with
  | Some v => v
  | None => default
  end.

(** [k in d]. *)
Definition dict_in (k : string) (d : pydict) : bool :=
  match dict_get d k with
  | Some _ => true
  | None => false
  end.

(** Exact comparison of a float with an integer, as Python compares a
    [float] with an [int]: [None] when the float is a NaN. *)
Definition float_compare_int (f : spec_float) (n : Z) : option comparison :=
  match f with
  | S754_nan => None
  | S754_infinity s => Some (if s then Lt else Gt)
  | S754_zero _ => Some (0 ?= n)
  | S754_finite s m e =>
      let sm := if s then Z.neg m else Z.pos m in
      Some (if 0 <=? e then (sm * 2 ^ e ?= n) else (sm ?= n * 2 ^ (- e)))
  end.

(** [v != n] for an integer literal [n].  [bool] is a subclass of [int];
    values of other types are never equal to a number. *)
Definition py_ne_int (v : pyval) (n : Z) : bool :=
  match v with
  | PyInt z => negb (z =? n)
  | PyBool b => negb (Z.b2z b =? n)
  | PyFloat f =>
      match float_compare_int f n with
      | Some Eq => false
      | _ => true
      end
  | PyNone | PyStr _ | PyList _ | PyDict _ => true
  end.

(** The exceptions the validator can meet that it does not catch. *)
Inductive exn : Type :=
| AttributeError
| TypeError.

(** [v > n] for an integer literal [n]: ordering a number against
    [None], a [str], a [list] or a [dict] raises [TypeError]. *)
Definition py_gt_int (v : pyval) (n : Z) : exn + bool :=
  match v with
  | PyInt z => inr (n <? z)
  | PyBool b => inr (n <? Z.b2z b)
  | PyFloat f =>
      match float_compare_int f n with
      | Some Gt => inr true
      | _ => inr false
      end
  | PyNone | PyStr _ | PyList _ | PyDict _ => inl TypeError
  end.

(** [str(z)] for an [int]: decimal digits, with a leading minus sign. *)
Definition str_int (z : Z) : string := NilZero.string_of_int (Z.to_int z).

(** ** Formatted strings *)

(** An f-string is kept as its fragments, literal text and interpolated
    values; [render] below is its evaluation. *)
Inductive fragment : Type :=
| Lit (s : string)
| Fmt (v : pyval).

Definition fstring : Type := list fragment.

Fixpoint join (sep : string) (l : list string) : string :=
  match l with
  | [] => EmptyString
  | [s] => s
  | s :: l' => s ++ sep ++ join sep l'
  end.

Section Rendering.
(** [repr] of a [float] (shortest round-trip digits) and of a [str]
    (quoting and escaping) are builtins of the interpreter. *)
Variable float_repr : spec_float -> string.
Variable str_repr : string -> string.

Fixpoint py_repr (v : pyval) : string :=
  match v with
  | PyNone => "None"
  | PyBool true => "True"
  | PyBool false => "False"
  | PyInt z => str_int z
  | PyFloat f => float_repr f
  | PyStr s => str_repr s
  | PyList l => "[" ++ join ", " (map py_repr l) ++ "]"
  | PyDict d =>
      "{" ++ join ", "
               (map (fun kv => str_repr (fst kv) ++ ": " ++ py_repr (snd kv)) d)
          ++ "}"
  end.

(** [str(v)], what [{v}] inserts in an f-string. *)
Definition py_str (v : pyval) : string :=
  match v with
  | PyStr s => s
  | _ => py_repr v
  end.

Definition render_fragment (x : fragment) : string :=
  match x with
  | Lit s => s
  | Fmt v => py_str v
  end.

Fixpoint render (m : fstring) : string :=
  match m with
  | [] => EmptyString
  | x :: m' => render_fragment x ++ render m'
  end.
End Rendering.

(** [s] occurs in [t]. *)
Definition occurs_in (s t : string) : Prop :=
  exists pre post, t = pre ++ s ++ post.

(** [random.choice(seq)] is [seq[randbelow(len(seq))]]; [rnd] is the
    generator's draw, reduced below the length.  The scripts apply it to a
    non-empty list only. *)
Definition choice (rnd : nat) (seq : list string) : string :=
  nth (rnd mod List.length seq)%nat seq EmptyString.

Inductive http_method : Type := GET | POST.

(** ** The search script, [src/testing-hw6/locustfile.py] *)
Module ProductSearchUser.

Definition QUERIES : list string :=
  [ "alpha"; "beta"; "gamma"; "delta"; "omega";
    "electronics"; "books"; "home"; "toys"; "fashion";
    "product" ].

(** [2.0], the request timeout in seconds. *)
Definition timeout_2_0 : spec_float := S754_finite false 4503599627370496 (-51).

(** The arguments of [self.client.get]. *)
Record request : Type := {
  method : http_method;
  url : string;
  name : string;
  timeout : spec_float;
  catch_response : bool
}.

(** What [resp.json()], that is [json.loads(resp.text)], does: it raises
    [json.JSONDecodeError] or returns the value read. *)
Inductive json_result : Type :=
| JSONDecodeError
| Loaded (data : pyval).

(** The response as the validator reads it. *)
Record response : Type := {
  status_code : Z;
  json : json_result
}.

(** What [resp.success()] and [resp.failure(reason)] record. *)
Inductive outcome : Type :=
| Success
| Failure (reason : fstring).

(** How the [with] block ends: the context manager reports the outcome the
    block has set, and lets an exception of the block that is not its own
    [ResponseError] propagate to the caller, reporting nothing. *)
Inductive completion : Type :=
| Reported (o : outcome)
| Escaped (e : exn).

(** The body of the [with] block of [search]. *)
Definition validate (resp : response) : completion :=
  if negb (status_code resp =? 200) then
    Reported (Failure [Lit "HTTP "; Fmt (PyInt (status_code resp))])
  else
    match json resp with
    | JSONDecodeError => Reported (Failure [Lit "Invalid JSON"])
    | Loaded (PyDict data) =>
        if py_ne_int (dict_get_default data "checked" PyNone) 100 then
          Reported (Failure [Lit "checked != 100 (got ";
                             Fmt (dict_get_default data "checked" PyNone);
                             Lit ")"])
        else
          match py_gt_int (dict_get_default data "count" (PyInt 0)) 20 with
          | inl e => Escaped e
          | inr over =>
              if over || negb (dict_in "hits" data) then
                Reported (Failure [Lit "bad payload"])
              else
                Reported Success
          end
    | Loaded _ =>
        (* [data.get]: only a [dict] has the attribute *)
        Escaped AttributeError
    end.

(** One execution of the task: the request sent and how it completed. *)
Record run : Type := {
  sent : request;
  completed : completion
}.

Definition search (rnd : nat) (server : request -> response) : run :=
  let q := choice rnd QUERIES in
  let req := {| method := GET;
                url := "/v1/products/search?q=" ++ q ++ "&limit=20";
                name := "/v1/products/search";
                timeout := timeout_2_0;
                catch_response := true |} in
  {| sent := req; completed := validate (server req) |}.

End ProductSearchUser.

(** ** The catalog script, [src/testing/locustfile.py] *)
Module SimpleEStoreUser.

Definition PRODUCT_OK : Z := 12345.
Definition PRODUCT_404 : Z := 54321.
Definition PRODUCT_GET_500 : Z := 50000.
Definition PRODUCT_POST_500 : Z := 99999.

Definition VALID_BODY : pydict :=
  [ ("sku", PyStr "DEF-456-QWE");
    ("manufacturer", PyStr "Beta Corp");
    ("category_id", PyInt 456);
    ("weight", PyInt 800);
    ("some_other_id", PyInt 22) ].

Definition INVALID_BODY_MISSING : pydict :=
  [ ("sku", PyStr EmptyString);
    ("manufacturer", PyStr "X");
    ("category_id", PyInt 1);
    ("weight", PyInt 100);
    ("some_other_id", PyInt 1) ].

Definition MISMATCH_ID_BODY : pydict :=
  [ ("product_id", PyInt 999);
    ("sku", PyStr "OK");
    ("manufacturer", PyStr "OK");
    ("category_id", PyInt 1);
    ("weight", PyInt 100);
    ("some_other_id", PyInt 1) ].

(** A request body: the text [json.dumps] writes for a value.  No task
    reads it back, so it is kept as the value written. *)
Inductive body : Type :=
| json_dumps (v : pyval).

(** The arguments of [self.client.get] and [self.client.post];
    [catch_response] is never passed and keeps its default, [False]. *)
Record request : Type := {
  method : http_method;
  url : string;
  headers : list (string * string);
  data : option body;
  name : string;
  catch_response : bool
}.

(** What the client can report as the cause of a failure: the error of
    a request that got no response, or the status of one that did. *)
Inductive request_exception : Type :=
| TransportError (msg : string)
| HTTPError (status : Z).

Record response : Type := {
  status_code : Z;
  error : option request_exception
}.

Inductive outcome : Type :=
| Success
| Failure (e : request_exception).

(** [Response.raise_for_status()] of the client library: the stored
    transport error if there is one, else an [HTTPError] for a status
    from 400 to 599, else nothing. *)
Definition raise_for_status (resp : response) : option request_exception :=
  match error resp with
  | Some e => Some e
  | None =>
      if (400 <=? status_code resp) && (status_code resp <? 600)
      then Some (HTTPError (status_code resp))
      else None
  end.

(** What the client reports for a request made without
    [catch_response]: no task code runs between the response and the
    report, which is a failure exactly when [raise_for_status] raises. *)
Definition report (resp : response) : outcome :=
  match raise_for_status resp with
  | Some e => Failure e
  | None => Success
  end.

Record run : Type := {
  sent : request;
  reported : outcome
}.

Definition client_get (server : request -> response)
           (url : string) (name : string) : run :=
  let req := {| method := GET; url := url; headers := []; data := None;
                name := name; catch_response := false |} in
  {| sent := req; reported := report (server req) |}.

Definition client_post (server : request -> response)
           (url : string) (headers : list (string * string)) (data : body)
           (name : string) : run :=
  let req := {| method := POST; url := url; headers := headers;
                data := Some data; name := name; catch_response := false |} in
  {| sent := req; reported := report (server req) |}.

Definition get_200 (server : request -> response) : run :=
  client_get server ("/v1/products/" ++ str_int PRODUCT_OK)
             "GET /v1/products/:id [200]".

Definition get_404 (server : request -> response) : run :=
  client_get server ("/v1/products/" ++ str_int PRODUCT_404)
             "GET /v1/products/:id [404]".

Definition get_500 (server : request -> response) : run :=
  client_get server ("/v1/products/" ++ str_int PRODUCT_GET_500)
             "GET /v1/products/:id [500]".

Definition post_204 (server : request -> response) : run :=
  client_post server ("/v1/products/" ++ str_int PRODUCT_OK ++ "/details")
              [("Content-Type", "application/json")]
              (json_dumps (PyDict VALID_BODY))
              "POST /v1/products/:id/details [204]".

Definition post_400_missing (server : request -> response) : run :=
  client_post server ("/v1/products/" ++ str_int PRODUCT_OK ++ "/details")
              [("Content-Type", "application/json")]
              (json_dumps (PyDict INVALID_BODY_MISSING))
              "POST /v1/products/:id/details [400-missing/invalid]".

Definition post_400_mismatch (server : request -> response) : run :=
  client_post server ("/v1/products/" ++ str_int PRODUCT_OK ++ "/details")
              [("Content-Type", "application/json")]
              (json_dumps (PyDict MISMATCH_ID_BODY))
              "POST /v1/products/:id/details [400-mismatch-id]".

Definition post_404 (server : request -> response) : run :=
  client_post server ("/v1/products/" ++ str_int PRODUCT_404 ++ "/details")
              [("Content-Type", "application/json")]
              (json_dumps (PyDict VALID_BODY))
              "POST /v1/products/:id/details [404]".

Definition post_500 (server : request -> response) : run :=
  client_post server ("/v1/products/" ++ str_int PRODUCT_POST_500 ++ "/details")
              [("Content-Type", "application/json")]
              (json_dumps (PyDict VALID_BODY))
              "POST /v1/products/:id/details [500]".

End SimpleEStoreUser.

(** ** Properties of values, fields and URLs *)

(** A value is a number: an [int], a [bool] (an [int] in Python) or a
    [float]. *)
Definition is_number (v : pyval) : Prop :=
  match v with
  | PyInt _ | PyBool _ | PyFloat _ => True
  | _ => False
  end.

(** A value is a number equal to [n]. *)
Definition number_eq (v : pyval) (n : Z) : Prop :=
  match v with
  | PyInt z => z = n
  | PyBool b => Z.b2z b = n
  | PyFloat f => float_compare_int f n = Some Eq
  | _ => False
  end.

(** A value is a number greater than [n]. *)
Definition number_gt (v : pyval) (n : Z) : Prop :=
  match v with
  | PyInt z => n < z
  | PyBool b => n < Z.b2z b
  | PyFloat f => float_compare_int f n = Some Gt
  | _ => False
  end.

Definition field_present (d : pydict) (k : string) : Prop :=
  exists v, dict_get d k = Some v.

Definition field_absent (d : pydict) (k : string) : Prop :=
  dict_get d k = None.

Definition field_equals (d : pydict) (k : string) (n : Z) : Prop :=
  exists v, dict_get d k = Some v /\ number_eq v n.

Definition field_exceeds (d : pydict) (k : string) (n : Z) : Prop :=
  exists v, dict_get d k = Some v /\ number_gt v n.

(** The field is bound to a number that is not greater than [n]. *)
Definition field_within (d : pydict) (k : string) (n : Z) : Prop :=
  exists v, dict_get d k = Some v /\ is_number v /\ ~ number_gt v n.

(** Pieces of a URL: the text before the first [c], and what follows. *)
Fixpoint split_on (c : ascii) (s : string) : list string :=
  match s with
  | EmptyString => [EmptyString]
  | String a s' =>
      if Ascii.eqb a c then EmptyString :: split_on c s'
      else match split_on c s' with
           | [] => [String a EmptyString]
           | h :: t => String a h :: t
           end
  end.

(** Path and query parameters of a URL of the form
    [path?k1=v1&k2=v2...]. *)
Definition url_parts (u : string) : option (string * list (list string)) :=
  match split_on "?" u with
  | [path; query] => Some (path, map (split_on "=") (split_on "&" query))
  | _ => None
  end.

Module SearchSpec.
Import ProductSearchUser.

(** The responses the validator is written to accept: status 200, a JSON
    object whose ["checked"] is 100, whose ["count"] is absent or a
    number not above 20, and that has ["hits"]. *)
Definition accepted (resp : response) : Prop :=
  status_code resp = 200 /\
  exists d, json resp = Loaded (PyDict d) /\
            field_equals d "checked" 100 /\
            (field_absent d "count" \/ field_within d "count" 20) /\
            field_present d "hits".

(** The same with ["count"] required: the field has to be there, and be a
    number not above 20. *)
Definition accepted_strict (resp : response) : Prop :=
  status_code resp = 200 /\
  exists d, json resp = Loaded (PyDict d) /\
            field_equals d "checked" 100 /\
            field_within d "count" 20 /\
            field_present d "hits".

(** The failures the validator names, each with the response it is for. *)
Inductive named_failure (resp : response) : fstring -> Prop :=
| nf_status :
    status_code resp <> 200 ->
    named_failure resp [Lit "HTTP "; Fmt (PyInt (status_code resp))]
| nf_json :
    status_code resp = 200 ->
    json resp = JSONDecodeError ->
    named_failure resp [Lit "Invalid JSON"]
| nf_checked d :
    status_code resp = 200 ->
    json resp = Loaded (PyDict d) ->
    ~ field_equals d "checked" 100 ->
    named_failure resp [Lit "checked != 100 (got ";
                        Fmt (dict_get_default d "checked" PyNone);
                        Lit ")"]
| nf_count d :
    status_code resp = 200 ->
    json resp = Loaded (PyDict d) ->
    field_equals d "checked" 100 ->
    field_exceeds d "count" 20 ->
    named_failure resp [Lit "bad payload"]
| nf_hits d :
    status_code resp = 200 ->
    json resp = Loaded (PyDict d) ->
    field_equals d "checked" 100 ->
    field_absent d "count" \/ field_within d "count" 20 ->
    field_absent d "hits" ->
    named_failure resp [Lit "bad payload"].

End SearchSpec.

Module CatalogSpec.
Import SimpleEStoreUser.

(** A response the client reports as a success: it arrived, and its
    status is not from 400 to 599. *)
Definition passes (resp : response) : Prop :=
  error resp = None /\ ~ (400 <= status_code resp < 600).

(** A server that answers every request with the given status. *)
Definition answers (status : Z) : request -> response :=
  fun _ => {| status_code := status; error := None |}.

(** A task whose report is the client's own: success exactly for the
    responses that pass, and for a response with a status from 400 to
    599 a failure that carries the status. *)
Definition reports_by_default (task : (request -> response) -> run) : Prop :=
  forall server,
    (reported (task server) = Success <-> passes (server (sent (task server)))) /\
    (error (server (sent (task server))) = None ->
     400 <= status_code (server (sent (task server))) < 600 ->
     reported (task server) =
       Failure (HTTPError (status_code (server (sent (task server)))))).

End CatalogSpec.

(** ** Sample responses *)

Module Samples.
Import ProductSearchUser.

(** Status 200, body [{"checked": 100, "hits": []}]. *)
Definition without_count : response :=
  {| status_code := 200;
     json := Loaded (PyDict [("checked", PyInt 100); ("hits", PyList [])]) |}.

(** Status 200, body [{"checked": 100, "hits": [1]}]. *)
Definition one_hit_without_count : response :=
  {| status_code := 200;
     json := Loaded (PyDict [("checked", PyInt 100);
                             ("hits", PyList [PyInt 1])]) |}.

(** Status 200, body [[]]. *)
Definition empty_array : response :=
  {| status_code := 200; json := Loaded (PyList []) |}.

(** Status 200, body [[1]]. *)
Definition array_of_one : response :=
  {| status_code := 200; json := Loaded (PyList [PyInt 1]) |}.

(** Status 200, body [{"checked": 100, "count": null, "hits": []}]. *)
Definition null_count : response :=
  {| status_code := 200;
     json := Loaded (PyDict [("checked", PyInt 100); ("count", PyNone);
                             ("hits", PyList [])]) |}.

(** Status 200, body [{"checked": 99, "count": null}]. *)
Definition checked_99 : response :=
  {| status_code := 200;
     json := Loaded (PyDict [("checked", PyInt 99); ("count", PyNone)]) |}.

(** Status 200, body [{"checked": 100, "count": 21, "hits": []}]. *)
Definition count_21 : response :=
  {| status_code := 200;
     json := Loaded (PyDict [("checked", PyInt 100); ("count", PyInt 21);
                             ("hits", PyList [])]) |}.

(** Status 503, body not JSON. *)
Definition unavailable : response :=
  {| status_code := 503; json := JSONDecodeError |}.
End Samples.

(** ** The tasks of the catalog class, and plain reason texts *)

Module SimpleEStoreTasks.
Import SimpleEStoreUser.

(** The methods marked [@task], in the order of their definition: what
    the class holds as [SimpleEStoreUser.tasks]. *)
Definition tasks : list ((request -> response) -> run) :=
  [ get_200; get_404; get_500;
    post_204; post_400_missing; post_400_mismatch; post_404; post_500 ].

End SimpleEStoreTasks.

(** What [str] gives for the result [d.get(k)] when no [repr] of a float,
    of a string or of a container is involved: the result is [None] (key
    absent, or bound to null), a boolean, an integer or a string. *)
Definition plain_str (v : option pyval) : option string :=
  match v with
  | None | Some PyNone => Some "None"
  | Some (PyBool true) => Some "True"
  | Some (PyBool false) => Some "False"
  | Some (PyInt z) => Some (str_int z)
  | Some (PyStr s) => Some s
  | Some (PyFloat _) | Some (PyList _) | Some (PyDict _) => None
  end.

(** ** Python values: comparisons and lookups *)


Lemma py_ne_int_false v n : py_ne_int v n = false <-> number_eq v n.
Proof.
  destruct v as [ | b | z | f | s | l | d]; simpl;
    try (split; [discriminate | contradiction]).
  - rewrite negb_false_iff. apply Z.eqb_eq.
  - rewrite negb_false_iff. apply Z.eqb_eq.
  - destruct (float_compare_int f n) as [[ | | ] | ];
      split; congruence.
Qed.

Lemma py_ne_int_true v n : py_ne_int v n = true <-> ~ number_eq v n.
Proof.
  rewrite <- py_ne_int_false. destruct (py_ne_int v n); split; congruence.
Qed.

Lemma py_gt_int_over v n : number_gt v n -> py_gt_int v n = inr true.
Proof.
  destruct v as [ | b | z | f | s | l | d]; simpl; try contradiction.
  - intros H. f_equal. apply Z.ltb_lt. exact H.
  - intros H. f_equal. apply Z.ltb_lt. exact H.
  - intros ->. reflexivity.
Qed.

Lemma py_gt_int_within v n :
  is_number v -> ~ number_gt v n -> py_gt_int v n = inr false.
Proof.
  destruct v as [ | b | z | f | s | l | d]; simpl; try contradiction;
    intros _ H.
  - f_equal. apply Z.ltb_ge. lia.
  - f_equal. apply Z.ltb_ge. lia.
  - destruct (float_compare_int f n) as [[ | | ] | ]; congruence.
Qed.

Lemma py_gt_int_inr v n b :
  py_gt_int v n = inr b ->
  is_number v /\ (b = true <-> number_gt v n).
Proof.
  destruct v as [ | c | z | f | s | l | d]; simpl; try discriminate;
    intros H; (split; [exact I | ]).
  - injection H as <-. apply Z.ltb_lt.
  - injection H as <-. apply Z.ltb_lt.
  - destruct (float_compare_int f n) as [[ | | ] | ];
      injection H as <-; split; congruence.
Qed.

Lemma dict_in_true k d : dict_in k d = true <-> field_present d k.
Proof.
  unfold dict_in, field_present. destruct (dict_get d k) as [v | ].
  - split; [eauto | reflexivity].
  - split; [discriminate | intros [v H]; discriminate].
Qed.

Lemma dict_in_false k d : dict_in k d = false <-> field_absent d k.
Proof.
  unfold dict_in, field_absent. destruct (dict_get d k); split; congruence.
Qed.

(** [d.get(k) != n] is false exactly when the field is there and is [n]. *)
Lemma get_ne_false d k n :
  py_ne_int (dict_get_default d k PyNone) n = false <-> field_equals d k n.
Proof.
  rewrite py_ne_int_false. unfold dict_get_default, field_equals.
  destruct (dict_get d k) as [v | ]; simpl.
  - split.
    + intros H. exists v. auto.
    + intros [v' [E H]]. injection E as ->. exact H.
  - split; [contradiction | intros [v' [E _]]; discriminate].
Qed.

Lemma get_ne_true d k n :
  py_ne_int (dict_get_default d k PyNone) n = true <-> ~ field_equals d k n.
Proof.
  rewrite <- get_ne_false.
  destruct (py_ne_int (dict_get_default d k PyNone) n); split; congruence.
Qed.

(** [d.get("count", 0) > n], for a limit [n] that 0 does not exceed. *)
Lemma get_count_over d k n :
  field_exceeds d k n -> py_gt_int (dict_get_default d k (PyInt 0)) n = inr true.
Proof.
  intros [v [E H]]. unfold dict_get_default. rewrite E.
  apply py_gt_int_over. exact H.
Qed.

Lemma get_count_within d k n :
  0 <= n ->
  field_absent d k \/ field_within d k n ->
  py_gt_int (dict_get_default d k (PyInt 0)) n = inr false.
Proof.
  intros Hn [E | [v [E [Hnum Hle]]]]; unfold dict_get_default;
    [unfold field_absent in E | ]; rewrite E.
  - simpl. f_equal. apply Z.ltb_ge. exact Hn.
  - apply py_gt_int_within; assumption.
Qed.

Lemma get_count_inr d k n b :
  0 <= n ->
  py_gt_int (dict_get_default d k (PyInt 0)) n = inr b ->
  (b = true /\ field_exceeds d k n) \/
  (b = false /\ (field_absent d k \/ field_within d k n)).
Proof.
  intros Hn H. unfold dict_get_default in H.
  destruct (dict_get d k) as [v | ] eqn:E.
  - apply py_gt_int_inr in H. destruct H as [Hnum Hb].
    destruct b.
    + left. split; [reflexivity | ]. exists v. split; [exact E | ].
      apply Hb. reflexivity.
    + right. split; [reflexivity | ]. right. exists v.
      split; [exact E | split; [exact Hnum | ]].
      intros Hgt. apply Hb in Hgt. discriminate.
  - simpl in H. injection H as <-.
    assert ((n <? 0) = false) as -> by (apply Z.ltb_ge; exact Hn).
    right. split; [reflexivity | left; exact E].
Qed.

Lemma choice_in rnd seq : seq <> [] -> In (choice rnd seq) seq.
Proof.
  intros Hne. unfold choice. apply nth_In.
  apply Nat.mod_upper_bound. destruct seq; [congruence | discriminate].
Qed.

(** ** The validator of the search task *)

Section Validate.
Import ProductSearchUser SearchSpec.

Lemma validate_status resp :
  status_code resp <> 200 ->
  validate resp =
    Reported (Failure [Lit "HTTP "; Fmt (PyInt (status_code resp))]).
Proof.
  intros H. unfold validate.
  destruct (status_code resp =? 200) eqn:E; [ | reflexivity].
  apply Z.eqb_eq in E. contradiction.
Qed.

(** The validator on a response with status 200 whose body is a JSON
    object: the two checks on the object's fields. *)
Lemma validate_object resp d :
  status_code resp = 200 ->
  json resp = Loaded (PyDict d) ->
  validate resp =
    if py_ne_int (dict_get_default d "checked" PyNone) 100 then
      Reported (Failure [Lit "checked != 100 (got ";
                         Fmt (dict_get_default d "checked" PyNone);
                         Lit ")"])
    else
      match py_gt_int (dict_get_default d "count" (PyInt 0)) 20 with
      | inl e => Escaped e
      | inr over =>
          if over || negb (dict_in "hits" d) then
            Reported (Failure [Lit "bad payload"])
          else Reported Success
      end.
Proof.
  intros Hs Hj. unfold validate. rewrite Hs, Hj. reflexivity.
Qed.

Lemma validate_named resp r :
  named_failure resp r -> validate resp = Reported (Failure r).
Proof.
  intros [Hs | Hs Hj | d Hs Hj Hc | d Hs Hj Hc Hn | d Hs Hj Hc Hn Hh].
  - apply validate_status. exact Hs.
  - unfold validate. rewrite Hs, Hj. reflexivity.
  - rewrite (validate_object resp d Hs Hj).
    apply get_ne_true in Hc. rewrite Hc. reflexivity.
  - rewrite (validate_object resp d Hs Hj).
    apply get_ne_false in Hc. rewrite Hc.
    rewrite (get_count_over _ _ _ Hn). reflexivity.
  - rewrite (validate_object resp d Hs Hj).
    apply get_ne_false in Hc. rewrite Hc.
    rewrite (get_count_within d "count" 20) by (lia || exact Hn).
    apply dict_in_false in Hh. rewrite Hh. reflexivity.
Qed.

Lemma validate_accepted resp :
  validate resp = Reported Success <-> accepted resp.
Proof.
  split.
  - unfold validate.
    destruct (status_code resp =? 200) eqn:Es; simpl; [ | discriminate].
    apply Z.eqb_eq in Es.
    destruct (json resp) as [ | data] eqn:Ej; [discriminate | ].
    destruct data as [ | b | z | f | s | l | d]; try discriminate.
    destruct (py_ne_int (dict_get_default d "checked" PyNone) 100) eqn:Ec;
      [discriminate | ].
    destruct (py_gt_int (dict_get_default d "count" (PyInt 0)) 20)
      as [e | over] eqn:En; [discriminate | ].
    destruct over; simpl; [discriminate | ].
    destruct (dict_in "hits" d) eqn:Eh; simpl; [ | discriminate].
    intros _. split; [exact Es | ]. exists d.
    split; [exact Ej | ].
    split; [apply get_ne_false; exact Ec | ].
    split; [ | apply dict_in_true; exact Eh].
    apply get_count_inr in En; [ | lia].
    destruct En as [[E _] | [_ H]]; [discriminate | exact H].
  - intros [Hs [d [Hj [Hc [Hn Hh]]]]].
    rewrite (validate_object resp d Hs Hj).
    apply get_ne_false in Hc. rewrite Hc.
    rewrite (get_count_within d "count" 20) by (lia || exact Hn).
    apply dict_in_true in Hh. rewrite Hh. reflexivity.
Qed.


(** The task hands the server's response to the validator. *)
Lemma search_completed rnd server :
  completed (search rnd server) = validate (server (sent (search rnd server))).
Proof. reflexivity. Qed.

End Validate.

(** ** Rendering of the failure reasons *)

Lemma render_lit float_repr str_repr s :
  render float_repr str_repr [Lit s] = s.
Proof.
  simpl. induction s as [ | a s IH]; simpl; [reflexivity | ].
  f_equal. exact IH.
Qed.

Lemma render_checked float_repr str_repr v :
  render float_repr str_repr [Lit "checked != 100 (got "; Fmt v; Lit ")"] =
  "checked != 100 (got " ++ py_str float_repr str_repr v ++ ")".
Proof.
  change (render float_repr str_repr [Lit "checked != 100 (got "; Fmt v; Lit ")"])
    with ("checked != 100 (got "
            ++ py_str float_repr str_repr v
            ++ render float_repr str_repr [Lit ")"]).
  rewrite render_lit. reflexivity.
Qed.

(** ** The search task *)

Section SearchTask.
Import ProductSearchUser SearchSpec.

(** C1, as the code has it: the search task records success if and only
    if the status is 200, the body is a JSON object, its "checked" is 100,
    its "count" is absent or a number not above 20, and "hits" is present;
    a response with another status, a body that is not JSON, another
    "checked", a "count" above 20 or no "hits" is recorded as the failure
    named for it. *)
Theorem search_classifies rnd server :
  (completed (search rnd server) = Reported Success <->
   accepted (server (sent (search rnd server)))) /\
  (forall r, named_failure (server (sent (search rnd server))) r ->
             completed (search rnd server) = Reported (Failure r)).
Proof.
  rewrite search_completed. split.
  - apply validate_accepted.
  - intros r. apply validate_named.
Qed.

Lemma search_classifies_witness :
  completed (search 0 (fun _ => Samples.unavailable)) =
    Reported (Failure [Lit "HTTP "; Fmt (PyInt 503)]).
Proof.
  apply (proj2 (search_classifies 0 (fun _ => Samples.unavailable))).
  apply (nf_status Samples.unavailable). simpl. discriminate.
Defined.

(** C1 as stated fails: a body with no "count" is recorded as success. *)
Lemma search_success_without_count :
  completed (search 0 (fun _ => Samples.without_count)) = Reported Success /\
  ~ accepted_strict Samples.without_count.
Proof.
  split; [reflexivity | ].
  intros [_ [d [Hj [_ [[v [Hv _]] _]]]]].
  simpl in Hj. injection Hj as <-. discriminate Hv.
Qed.

(** C2 at its failing inputs: a body that is JSON but not an object, and
    an object whose "count" is null, make the task raise; nothing is
    recorded for the response. *)
Theorem search_raises rnd :
  completed (search rnd (fun _ => Samples.empty_array)) = Escaped AttributeError /\
  completed (search rnd (fun _ => Samples.null_count)) = Escaped TypeError /\
  (forall o, completed (search rnd (fun _ => Samples.empty_array)) <> Reported o) /\
  (forall o, completed (search rnd (fun _ => Samples.null_count)) <> Reported o).
Proof.
  split; [reflexivity | ]. split; [reflexivity | ].
  split; intros o; discriminate.
Qed.

(** C7 at its failing input: status 200 with body [[1]], well-formed JSON
    in which no "checked" is to be found.  The task raises
    [AttributeError] at [data.get], and no failure is recorded for the
    response, whatever the reason. *)
Theorem search_array_records_nothing rnd :
  status_code Samples.array_of_one = 200 /\
  json Samples.array_of_one = Loaded (PyList [PyInt 1]) /\
  completed (search rnd (fun _ => Samples.array_of_one)) = Escaped AttributeError /\
  forall reason,
    completed (search rnd (fun _ => Samples.array_of_one)) <>
      Reported (Failure reason).
Proof.
  split; [reflexivity | ]. split; [reflexivity | ].
  split; [reflexivity | ]. intros reason. discriminate.
Qed.

(** X3: on a response with status 200 and a JSON object body whose "checked"
    is not 100, or is absent, the task records the failure
    "checked != 100 (got <value>)", which contains the value observed
    ([None] when absent); no other field is looked at, so every response
    with the same "checked" gets the same record. *)
Lemma search_checked_mismatch rnd server resp d :
  server (sent (search rnd server)) = resp ->
  status_code resp = 200 ->
  json resp = Loaded (PyDict d) ->
  ~ field_equals d "checked" 100 ->
  exists reason,
    completed (search rnd server) = Reported (Failure reason) /\
    (forall float_repr str_repr,
        render float_repr str_repr reason =
          "checked != 100 (got "
            ++ py_str float_repr str_repr (dict_get_default d "checked" PyNone)
            ++ ")" /\
        occurs_in (py_str float_repr str_repr (dict_get_default d "checked" PyNone))
                  (render float_repr str_repr reason)) /\
    (forall resp' d',
        status_code resp' = 200 ->
        json resp' = Loaded (PyDict d') ->
        dict_get d' "checked" = dict_get d "checked" ->
        validate resp' = Reported (Failure reason)).
Proof.
  intros Hr Hs Hj Hc.
  exists [Lit "checked != 100 (got ";
          Fmt (dict_get_default d "checked" PyNone); Lit ")"].
  split; [ | split].
  - rewrite search_completed, Hr. apply validate_named.
    apply (nf_checked resp d); assumption.
  - intros float_repr str_repr. rewrite render_checked.
    split; [reflexivity | ].
    exists "checked != 100 (got ", ")". reflexivity.
  - intros resp' d' Hs' Hj' Hd.
    assert (dict_get_default d "checked" PyNone =
            dict_get_default d' "checked" PyNone) as ->
        by (unfold dict_get_default; rewrite Hd; reflexivity).
    apply validate_named. apply (nf_checked resp' d'); try assumption.
    intros [v [Hv Hn]]. apply Hc. exists v. split; [congruence | exact Hn].
Qed.

Lemma search_checked_mismatch_witness :
  exists reason,
    completed (search 0 (fun _ => Samples.checked_99)) = Reported (Failure reason) /\
    (forall float_repr str_repr,
        render float_repr str_repr reason = "checked != 100 (got 99)" /\
        occurs_in "99" (render float_repr str_repr reason)) /\
    (forall resp' d',
        status_code resp' = 200 ->
        json resp' = Loaded (PyDict d') ->
        dict_get d' "checked" = Some (PyInt 99) ->
        validate resp' = Reported (Failure reason)).
Proof.
  apply (search_checked_mismatch 0 (fun _ => Samples.checked_99)
           Samples.checked_99
           [("checked", PyInt 99); ("count", PyNone)]);
    try reflexivity.
  intros [v [Hv Hn]]. simpl in Hv. injection Hv as <-. simpl in Hn. lia.
Defined.

(** C8, as the code has it: on a response with status 200 and a JSON
    object body whose "checked" is 100, the task records the failure
    "bad payload" when "count" is a number above 20; and when "count" is
    absent or a number not above 20, it records "bad payload" exactly
    when "hits" is absent, so that a missing "count" alone is no
    failure. *)
Theorem search_bad_payload rnd server resp d :
  server (sent (search rnd server)) = resp ->
  status_code resp = 200 ->
  json resp = Loaded (PyDict d) ->
  field_equals d "checked" 100 ->
  (forall float_repr str_repr,
      render float_repr str_repr [Lit "bad payload"] = "bad payload") /\
  (field_exceeds d "count" 20 ->
   completed (search rnd server) = Reported (Failure [Lit "bad payload"])) /\
  (field_absent d "count" \/ field_within d "count" 20 ->
   (completed (search rnd server) = Reported (Failure [Lit "bad payload"]) <->
    field_absent d "hits")).
Proof.
  intros Hr Hs Hj Hc. rewrite search_completed, Hr.
  split; [ | split].
  - intros float_repr str_repr. apply render_lit.
  - intros Hn. apply validate_named. apply (nf_count resp d); assumption.
  - intros Hn. split.
    + intros Hv. destruct (dict_get d "hits") as [h | ] eqn:Eh;
        [ | exact Eh].
      assert (validate resp = Reported Success) as Hok.
      { apply validate_accepted. split; [exact Hs | ]. exists d.
        repeat split; try assumption. exists h. exact Eh. }
      rewrite Hok in Hv. discriminate Hv.
    + intros Hh. apply validate_named. apply (nf_hits resp d); assumption.
Qed.

Lemma search_bad_payload_witness :
  completed (search 0 (fun _ => Samples.count_21)) =
    Reported (Failure [Lit "bad payload"]).
Proof.
  refine (proj1 (proj2 (search_bad_payload
                          0 (fun _ => Samples.count_21) Samples.count_21
                          [("checked", PyInt 100); ("count", PyInt 21);
                           ("hits", PyList [])]
                          eq_refl eq_refl eq_refl _)) _).
  - exists (PyInt 100). split; reflexivity.
  - exists (PyInt 21). split; [reflexivity | simpl; lia].
Defined.

(** C8 as stated fails: with "checked" 100 and no "count", the response
    is not recorded as "bad payload". *)
Lemma search_missing_count_passes :
  field_equals [("checked", PyInt 100); ("hits", PyList [PyInt 1])] "checked" 100 /\
  field_absent [("checked", PyInt 100); ("hits", PyList [PyInt 1])] "count" /\
  completed (search 1 (fun _ => Samples.one_hit_without_count)) = Reported Success /\
  completed (search 1 (fun _ => Samples.one_hit_without_count)) <>
    Reported (Failure [Lit "bad payload"]).
Proof.
  split; [exists (PyInt 100); split; reflexivity | ].
  split; [reflexivity | ].
  split; [reflexivity | discriminate].
Qed.

(** C10: on a response with status 200 and a JSON object body in which
    "checked" is 100, "hits" is present and "count" is absent, the
    missing "count" is read as 0 and the response is recorded as
    success. *)
Theorem search_missing_count rnd server resp d :
  server (sent (search rnd server)) = resp ->
  status_code resp = 200 ->
  json resp = Loaded (PyDict d) ->
  field_equals d "checked" 100 ->
  field_present d "hits" ->
  field_absent d "count" ->
  dict_get_default d "count" (PyInt 0) = PyInt 0 /\
  completed (search rnd server) = Reported Success.
Proof.
  intros Hr Hs Hj Hc Hh Hn. split.
  - unfold dict_get_default. rewrite Hn. reflexivity.
  - rewrite search_completed, Hr. apply validate_accepted.
    split; [exact Hs | ]. exists d. repeat split; try assumption.
    left. exact Hn.
Qed.

Lemma search_missing_count_witness :
  dict_get_default [("checked", PyInt 100); ("hits", PyList [])] "count" (PyInt 0)
    = PyInt 0 /\
  completed (search 0 (fun _ => Samples.without_count)) = Reported Success.
Proof.
  apply (search_missing_count 0 (fun _ => Samples.without_count)
           Samples.without_count
           [("checked", PyInt 100); ("hits", PyList [])]);
    try reflexivity.
  - exists (PyInt 100). split; reflexivity.
  - exists (PyList []). reflexivity.
Defined.

Lemma query_url_parts q :
  In q QUERIES ->
  url_parts ("/v1/products/search?q=" ++ q ++ "&limit=20") =
    Some ("/v1/products/search", [["q"; q]; ["limit"; "20"]]).
Proof.
  unfold QUERIES. simpl In.
  intros H.
  repeat (destruct H as [<- | H]; [reflexivity | ]).
  contradiction.
Qed.

(** C9: whatever the draw, the request of the search task is a GET whose
    URL is [/v1/products/search?q=<q>&limit=20] for the member [q] of
    QUERIES that was drawn: its path is [/v1/products/search] and its
    parameters are [q], a member of QUERIES, and [limit], which is 20. *)
Theorem search_request rnd server :
  method (sent (search rnd server)) = GET /\
  exists q,
    q = choice rnd QUERIES /\
    In q QUERIES /\
    url (sent (search rnd server)) = "/v1/products/search?q=" ++ q ++ "&limit=20" /\
    url_parts (url (sent (search rnd server))) =
      Some ("/v1/products/search", [["q"; q]; ["limit"; "20"]]).
Proof.
  split; [reflexivity | ].
  exists (choice rnd QUERIES).
  assert (In (choice rnd QUERIES) QUERIES) as Hin
      by (apply choice_in; discriminate).
  split; [reflexivity | ]. split; [exact Hin | ].
  split; [reflexivity | ].
  apply query_url_parts. exact Hin.
Qed.

End SearchTask.

(** ** The catalog tasks *)

Section CatalogTasks.
Import SimpleEStoreUser CatalogSpec.

Lemma report_passes resp : report resp = Success <-> passes resp.
Proof.
  unfold report, raise_for_status, passes.
  destruct (error resp) as [e | ].
  - split; [discriminate | intros [H _]; discriminate].
  - destruct ((400 <=? status_code resp) && (status_code resp <? 600)) eqn:E.
    + apply andb_true_iff in E. destruct E as [E1 E2].
      apply Z.leb_le in E1. apply Z.ltb_lt in E2.
      split; [discriminate | intros [_ H]; exfalso; apply H; lia].
    + apply andb_false_iff in E.
      split; [ | reflexivity]. intros _. split; [reflexivity | ].
      intros [H1 H2]. destruct E as [E | E].
      * apply Z.leb_gt in E. lia.
      * apply Z.ltb_ge in E. lia.
Qed.

Lemma report_http_error resp :
  error resp = None ->
  400 <= status_code resp < 600 ->
  report resp = Failure (HTTPError (status_code resp)).
Proof.
  intros He [H1 H2]. unfold report, raise_for_status. rewrite He.
  apply Z.leb_le in H1. apply Z.ltb_lt in H2. rewrite H1, H2. reflexivity.
Qed.

Lemma client_get_by_default u n :
  reports_by_default (fun server => client_get server u n).
Proof.
  intros server. split.
  - apply report_passes.
  - apply report_http_error.
Qed.

Lemma client_post_by_default u h b n :
  reports_by_default (fun server => client_post server u h b n).
Proof.
  intros server. split.
  - apply report_passes.
  - apply report_http_error.
Qed.

(** C3, as the code has it: for identifier 54321 the GET task and the
    POST task (with VALID_BODY) send their request without a check of
    their own, and the client reports success exactly when a response
    came whose status is not from 400 to 599; a 404 is reported as a
    failure. *)
Theorem tasks_404_reported :
  (forall server,
      sent (get_404 server) =
        {| method := GET; url := "/v1/products/54321"; headers := [];
           data := None; name := "GET /v1/products/:id [404]";
           catch_response := false |}) /\
  (forall server,
      sent (post_404 server) =
        {| method := POST; url := "/v1/products/54321/details";
           headers := [("Content-Type", "application/json")];
           data := Some (json_dumps (PyDict VALID_BODY));
           name := "POST /v1/products/:id/details [404]";
           catch_response := false |}) /\
  reports_by_default get_404 /\
  reports_by_default post_404 /\
  reported (get_404 (answers 404)) = Failure (HTTPError 404) /\
  reported (post_404 (answers 404)) = Failure (HTTPError 404).
Proof.
  split; [reflexivity | ]. split; [reflexivity | ].
  split; [apply client_get_by_default | ].
  split; [apply client_post_by_default | ].
  split; reflexivity.
Qed.

Lemma tasks_404_reported_witness :
  reported (get_404 (answers 200)) = Success /\
  reported (post_404 (answers 503)) = Failure (HTTPError 503).
Proof.
  destruct tasks_404_reported as [_ [_ [Hg [Hp _]]]].
  split.
  - apply (proj1 (Hg (answers 200))). split; [reflexivity | simpl; lia].
  - apply (proj2 (Hp (answers 503))); [reflexivity | simpl; lia].
Defined.

(** C3 as stated fails: a 404 is not classified as success. *)
Lemma tasks_404_fail_on_404 :
  reported (get_404 (answers 404)) <> Success /\
  reported (post_404 (answers 404)) <> Success /\
  reported (get_404 (answers 200)) = Success.
Proof. repeat split; (discriminate || reflexivity). Qed.

(** C4, as the code has it: the GET task on id 50000 and the POST task
    on id 99999 send their request without a check of their own, and the
    client reports success exactly when a response came whose status is
    not from 400 to 599; a 500 is reported as a failure. *)
Theorem tasks_500_reported :
  (forall server,
      sent (get_500 server) =
        {| method := GET; url := "/v1/products/50000"; headers := [];
           data := None; name := "GET /v1/products/:id [500]";
           catch_response := false |}) /\
  (forall server,
      sent (post_500 server) =
        {| method := POST; url := "/v1/products/99999/details";
           headers := [("Content-Type", "application/json")];
           data := Some (json_dumps (PyDict VALID_BODY));
           name := "POST /v1/products/:id/details [500]";
           catch_response := false |}) /\
  reports_by_default get_500 /\
  reports_by_default post_500 /\
  reported (get_500 (answers 500)) = Failure (HTTPError 500) /\
  reported (post_500 (answers 500)) = Failure (HTTPError 500).
Proof.
  split; [reflexivity | ]. split; [reflexivity | ].
  split; [apply client_get_by_default | ].
  split; [apply client_post_by_default | ].
  split; reflexivity.
Qed.

Lemma tasks_500_reported_witness :
  reported (get_500 (answers 302)) = Success /\
  reported (post_500 (answers 502)) = Failure (HTTPError 502).
Proof.
  destruct tasks_500_reported as [_ [_ [Hg [Hp _]]]].
  split.
  - apply (proj1 (Hg (answers 302))). split; [reflexivity | simpl; lia].
  - apply (proj2 (Hp (answers 502))); [reflexivity | simpl; lia].
Defined.

(** C4 as stated fails: a status other than 500 is classified as
    success. *)
Lemma tasks_500_succeed_on_200 :
  reported (get_500 (answers 200)) = Success /\
  reported (post_500 (answers 204)) = Success.
Proof. split; reflexivity. Qed.

(** C5, as the code has it: the POST tasks that send
    INVALID_BODY_MISSING (its "sku" is the empty string) and
    MISMATCH_ID_BODY (its "product_id" is 999) to id 12345 make no check
    of their own, and the client reports success exactly when a response
    came whose status is not from 400 to 599; a 400 is reported as a
    failure. *)
Theorem tasks_400_reported :
  (forall server,
      sent (post_400_missing server) =
        {| method := POST; url := "/v1/products/12345/details";
           headers := [("Content-Type", "application/json")];
           data := Some (json_dumps (PyDict INVALID_BODY_MISSING));
           name := "POST /v1/products/:id/details [400-missing/invalid]";
           catch_response := false |}) /\
  (forall server,
      sent (post_400_mismatch server) =
        {| method := POST; url := "/v1/products/12345/details";
           headers := [("Content-Type", "application/json")];
           data := Some (json_dumps (PyDict MISMATCH_ID_BODY));
           name := "POST /v1/products/:id/details [400-mismatch-id]";
           catch_response := false |}) /\
  dict_get INVALID_BODY_MISSING "sku" = Some (PyStr EmptyString) /\
  dict_get MISMATCH_ID_BODY "product_id" = Some (PyInt 999) /\
  reports_by_default post_400_missing /\
  reports_by_default post_400_mismatch /\
  reported (post_400_missing (answers 400)) = Failure (HTTPError 400) /\
  reported (post_400_mismatch (answers 400)) = Failure (HTTPError 400).
Proof.
  split; [reflexivity | ]. split; [reflexivity | ].
  split; [reflexivity | ]. split; [reflexivity | ].
  split; [apply client_post_by_default | ].
  split; [apply client_post_by_default | ].
  split; reflexivity.
Qed.

Lemma tasks_400_reported_witness :
  reported (post_400_missing (answers 201)) = Success /\
  reported (post_400_mismatch (answers 422)) = Failure (HTTPError 422).
Proof.
  destruct tasks_400_reported as [_ [_ [_ [_ [Hg [Hp _]]]]]].
  split.
  - apply (proj1 (Hg (answers 201))). split; [reflexivity | simpl; lia].
  - apply (proj2 (Hp (answers 422))); [reflexivity | simpl; lia].
Defined.

(** C5 as stated fails: a status other than 400 is classified as
    success. *)
Lemma tasks_400_succeed_on_204 :
  reported (post_400_missing (answers 204)) = Success /\
  reported (post_400_mismatch (answers 204)) = Success.
Proof. split; reflexivity. Qed.

(** C6, as the code has it: for identifier 12345 the GET task and the
    POST task (with VALID_BODY) make no check of their own, and the
    client reports success exactly when a response came whose status is
    not from 400 to 599: for 200 and for 204, and for the other statuses
    below 400 as well. *)
Theorem tasks_ok_reported :
  (forall server,
      sent (get_200 server) =
        {| method := GET; url := "/v1/products/12345"; headers := [];
           data := None; name := "GET /v1/products/:id [200]";
           catch_response := false |}) /\
  (forall server,
      sent (post_204 server) =
        {| method := POST; url := "/v1/products/12345/details";
           headers := [("Content-Type", "application/json")];
           data := Some (json_dumps (PyDict VALID_BODY));
           name := "POST /v1/products/:id/details [204]";
           catch_response := false |}) /\
  reports_by_default get_200 /\
  reports_by_default post_204 /\
  reported (get_200 (answers 200)) = Success /\
  reported (post_204 (answers 204)) = Success.
Proof.
  split; [reflexivity | ]. split; [reflexivity | ].
  split; [apply client_get_by_default | ].
  split; [apply client_post_by_default | ].
  split; reflexivity.
Qed.

Lemma tasks_ok_reported_witness :
  reported (get_200 (answers 206)) = Success /\
  reported (post_204 (answers 404)) = Failure (HTTPError 404).
Proof.
  destruct tasks_ok_reported as [_ [_ [Hg [Hp _]]]].
  split.
  - apply (proj1 (Hg (answers 206))). split; [reflexivity | simpl; lia].
  - apply (proj2 (Hp (answers 404))); [reflexivity | simpl; lia].
Defined.

(** C6 as stated fails: a 2xx status other than 200, and one other than
    204, are classified as success. *)
Lemma tasks_ok_succeed_on_other_2xx :
  reported (get_200 (answers 201)) = Success /\
  reported (post_204 (answers 200)) = Success.
Proof. split; reflexivity. Qed.

End CatalogTasks.

(** ** Strings *)

Lemma append_cancel_l p a b : p ++ a = p ++ b -> a = b.
Proof.
  induction p as [ | c p IH]; simpl; intros H; [exact H | ].
  injection H as H. apply IH. exact H.
Qed.

Lemma append_length a b :
  String.length (a ++ b) = (String.length a + String.length b)%nat.
Proof.
  induction a as [ | c a IH]; simpl; [reflexivity | ].
  rewrite IH. reflexivity.
Qed.

Lemma append_cancel_r s a b : a ++ s = b ++ s -> a = b.
Proof.
  revert b. induction a as [ | c a IH]; intros [ | c' b] H; simpl in H.
  - reflexivity.
  - apply (f_equal String.length) in H. simpl in H.
    rewrite append_length in H. lia.
  - apply (f_equal String.length) in H. simpl in H.
    rewrite append_length in H. lia.
  - injection H as -> H. f_equal. apply IH. exact H.
Qed.

(** ** The search task: when it raises, and which failures it records *)

Section SearchFurther.
Import ProductSearchUser SearchSpec.

Lemma validate_failure_named resp r :
  validate resp = Reported (Failure r) -> named_failure resp r.
Proof.
  unfold validate.
  destruct (status_code resp =? 200) eqn:Es; simpl.
  - apply Z.eqb_eq in Es.
    destruct (json resp) as [ | data] eqn:Ej.
    + intros H. injection H as <-. apply nf_json; assumption.
    + destruct data as [ | b | z | f | s | l | d]; try discriminate.
      destruct (py_ne_int (dict_get_default d "checked" PyNone) 100) eqn:Ec.
      * intros H. injection H as <-.
        apply (nf_checked resp d); try assumption.
        apply get_ne_true. exact Ec.
      * apply get_ne_false in Ec.
        destruct (py_gt_int (dict_get_default d "count" (PyInt 0)) 20)
          as [e | over] eqn:En; [discriminate | ].
        apply get_count_inr in En; [ | lia].
        destruct En as [[-> Hn] | [-> Hn]]; simpl.
        -- intros H. injection H as <-.
           apply (nf_count resp d); assumption.
        -- destruct (dict_in "hits" d) eqn:Eh; simpl; [discriminate | ].
           intros H. injection H as <-.
           apply (nf_hits resp d); try assumption.
           apply dict_in_false. exact Eh.
  - apply Z.eqb_neq in Es. intros H. injection H as <-.
    apply nf_status. exact Es.
Qed.


(** X2: the search task records a failure with reason [r] if and only if
    [r] is one of the named failures, under the condition it is named
    for: "HTTP <status>" when the status is not 200, "Invalid JSON" when
    the body does not parse, "checked != 100 (got <value>)" when the
    object's "checked" is not 100, "bad payload" when "count" is a number
    above 20 or, with "count" absent or within the limit, "hits" is
    absent.  No other failure is ever recorded. *)
Theorem search_failure_iff rnd server r :
  completed (search rnd server) = Reported (Failure r) <->
  named_failure (server (sent (search rnd server))) r.
Proof.
  rewrite search_completed. split.
  - apply validate_failure_named.
  - apply validate_named.
Qed.

(** X4: on responses with status 200 and an object body, the record of
    the search task depends on three observations only: the value of
    "checked", the value of "count" (or its absence), and whether "hits"
    is there.  The value of "hits", the other keys and the order of the
    keys play no role. *)
Theorem search_observes rnd rnd' server server' d d' :
  status_code (server (sent (search rnd server))) = 200 ->
  status_code (server' (sent (search rnd' server'))) = 200 ->
  json (server (sent (search rnd server))) = Loaded (PyDict d) ->
  json (server' (sent (search rnd' server'))) = Loaded (PyDict d') ->
  dict_get d "checked" = dict_get d' "checked" ->
  dict_get d "count" = dict_get d' "count" ->
  dict_in "hits" d = dict_in "hits" d' ->
  completed (search rnd server) = completed (search rnd' server').
Proof.
  intros Hs Hs' Hj Hj' Hc Hn Hh.
  rewrite !search_completed.
  rewrite (validate_object _ d Hs Hj), (validate_object _ d' Hs' Hj').
  unfold dict_get_default. rewrite Hc, Hn, Hh. reflexivity.
Qed.

Lemma search_observes_witness :
  completed
    (search 0 (fun _ =>
       {| status_code := 200;
          json := Loaded (PyDict [("checked", PyInt 100); ("count", PyInt 3);
                                  ("hits", PyList [])]) |})) =
  completed
    (search 5 (fun _ =>
       {| status_code := 200;
          json := Loaded (PyDict [("hits", PyStr "none"); ("took_ms", PyInt 12);
                                  ("count", PyInt 3);
                                  ("checked", PyInt 100)]) |})).
Proof.
  apply (search_observes 0 5 _ _
           [("checked", PyInt 100); ("count", PyInt 3); ("hits", PyList [])]
           [("hits", PyStr "none"); ("took_ms", PyInt 12); ("count", PyInt 3);
            ("checked", PyInt 100)]);
    reflexivity.
Defined.

(** X5: when the "checked" that fails the check is absent, null, a
    boolean, an integer or a string, the reason reads
    "checked != 100 (got <text>)" where the text is [None] for an absent
    key and for null alike, [True] or [False], the decimal digits, or the
    characters of the string without quotes; so the string "100" is
    reported as [(got 100)]. *)
Theorem search_checked_reason_text rnd server d text :
  status_code (server (sent (search rnd server))) = 200 ->
  json (server (sent (search rnd server))) = Loaded (PyDict d) ->
  ~ field_equals d "checked" 100 ->
  plain_str (dict_get d "checked") = Some text ->
  exists reason,
    completed (search rnd server) = Reported (Failure reason) /\
    forall float_repr str_repr,
      render float_repr str_repr reason = "checked != 100 (got " ++ text ++ ")".
Proof.
  intros Hs Hj Hc Ht.
  exists [Lit "checked != 100 (got ";
          Fmt (dict_get_default d "checked" PyNone); Lit ")"].
  split.
  - rewrite search_completed. apply validate_named.
    apply (nf_checked _ d); assumption.
  - intros float_repr str_repr. rewrite render_checked.
    unfold dict_get_default.
    destruct (dict_get d "checked") as [[ | [ | ] | z | f | s | l | d'] | ];
      simpl in Ht; try discriminate; injection Ht as <-; reflexivity.
Qed.

Lemma search_checked_reason_text_witness :
  exists reason,
    completed
      (search 2 (fun _ =>
         {| status_code := 200;
            json := Loaded (PyDict [("checked", PyStr "100");
                                    ("hits", PyList [])]) |})) =
      Reported (Failure reason) /\
    forall float_repr str_repr,
      render float_repr str_repr reason = "checked != 100 (got 100)".
Proof.
  apply (search_checked_reason_text 2 _
           [("checked", PyStr "100"); ("hits", PyList [])] "100");
    try reflexivity.
  intros [v [Hv Hn]]. simpl in Hv. injection Hv as <-. exact Hn.
Defined.

(** X6: the check on "count" is an upper bound only.  With status 200,
    "checked" 100 and "hits" present, a "count" that is an integer of at
    most 20 (negative ones too), a boolean, a float NaN, minus infinity
    or zero is recorded as success. *)
Theorem search_count_upper_bound_only rnd server d c :
  status_code (server (sent (search rnd server))) = 200 ->
  json (server (sent (search rnd server))) = Loaded (PyDict d) ->
  field_equals d "checked" 100 ->
  field_present d "hits" ->
  dict_get d "count" = Some c ->
  (exists z, c = PyInt z /\ z <= 20) \/
  (exists b, c = PyBool b) \/
  c = PyFloat S754_nan \/
  c = PyFloat (S754_infinity true) \/
  (exists s, c = PyFloat (S754_zero s)) ->
  completed (search rnd server) = Reported Success.
Proof.
  intros Hs Hj Hc Hh Hn Hcases.
  rewrite search_completed. apply validate_accepted.
  split; [exact Hs | ]. exists d.
  split; [exact Hj | ]. split; [exact Hc | ]. split; [ | exact Hh].
  right. exists c. split; [exact Hn | ].
  destruct Hcases as [[z [-> Hz]] | [[b ->] | [-> | [-> | [s ->]]]]]; simpl.
  - split; [exact I | lia].
  - split; [exact I | destruct b; simpl; lia].
  - split; [exact I | discriminate].
  - split; [exact I | discriminate].
  - split; [exact I | discriminate].
Qed.

Lemma search_count_upper_bound_only_witness :
  completed
    (search 0 (fun _ =>
       {| status_code := 200;
          json := Loaded (PyDict [("checked", PyInt 100); ("count", PyInt (-7));
                                  ("hits", PyList [])]) |})) =
  Reported Success.
Proof.
  apply (search_count_upper_bound_only 0 _
           [("checked", PyInt 100); ("count", PyInt (-7)); ("hits", PyList [])]
           (PyInt (-7)));
    try reflexivity.
  - exists (PyInt 100). split; reflexivity.
  - exists (PyList []). reflexivity.
  - left. exists (-7). split; [reflexivity | lia].
Defined.

Lemma QUERIES_NoDup : NoDup QUERIES.
Proof.
  unfold QUERIES.
  repeat (constructor; [simpl; intuition discriminate | ]).
  constructor.
Qed.

Lemma search_url rnd server :
  url (sent (search rnd server)) =
    "/v1/products/search?q=" ++ choice rnd QUERIES ++ "&limit=20".
Proof. reflexivity. Qed.

(** X7: the URLs the search task can request are exactly those of the
    members of QUERIES: every member is requested for some draw and no
    other term ever is; and two different draws below 11 request
    different terms. *)
Theorem search_draws_every_query server :
  (forall q,
      In q QUERIES <->
      exists rnd,
        url (sent (search rnd server)) =
          "/v1/products/search?q=" ++ q ++ "&limit=20") /\
  (forall r1 r2,
      (r1 < 11)%nat -> (r2 < 11)%nat ->
      url (sent (search r1 server)) = url (sent (search r2 server)) ->
      r1 = r2).
Proof.
  split.
  - intros q. split.
    + intros Hq. destruct (In_nth QUERIES q EmptyString Hq) as [n [Hn E]].
      exists n. rewrite search_url. unfold choice.
      rewrite Nat.mod_small by exact Hn. rewrite E. reflexivity.
    + intros [rnd E]. rewrite search_url in E.
      apply append_cancel_l in E. apply append_cancel_r in E.
      rewrite <- E. apply choice_in. discriminate.
  - intros r1 r2 H1 H2 E. rewrite !search_url in E.
    apply append_cancel_l in E. apply append_cancel_r in E.
    unfold choice in E.
    change (List.length QUERIES) with 11%nat in E.
    rewrite !Nat.mod_small in E by assumption.
    apply (proj1 (NoDup_nth QUERIES EmptyString) QUERIES_NoDup r1 r2);
      assumption.
Qed.

End SearchFurther.

(** ** The catalog tasks: one rule for all, fixed requests *)

Section CatalogFurther.
Import SimpleEStoreUser CatalogSpec SimpleEStoreTasks.

(** Case analysis on the member of [tasks]. *)
Ltac each_task H :=
  unfold tasks in H; simpl in H;
  repeat (destruct H as [<- | H]); [ .. | contradiction].



(** X9: every task sends one fixed request, the same whatever the server
    answers, and never asks to catch the response; a GET carries no
    header and no body, a POST carries the JSON content type and the
    dump of a dict; and the eight name labels are pairwise different, so
    that each task has a statistics entry of its own. *)
Theorem tasks_requests_fixed :
  (forall t s1 s2, In t tasks -> sent (t s1) = sent (t s2)) /\
  NoDup (map (fun t => name (sent (t (answers 200)))) tasks) /\
  (forall t s,
      In t tasks ->
      catch_response (sent (t s)) = false /\
      match method (sent (t s)) with
      | GET => headers (sent (t s)) = [] /\ data (sent (t s)) = None
      | POST =>
          headers (sent (t s)) = [("Content-Type", "application/json")] /\
          exists b, data (sent (t s)) = Some (json_dumps (PyDict b))
      end).
Proof.
  split; [ | split].
  - intros t s1 s2 H. each_task H; reflexivity.
  - unfold tasks. simpl.
    repeat (constructor; [simpl; intuition discriminate | ]).
    constructor.
  - intros t s H.
    each_task H; (split; [reflexivity | ]); simpl;
      (split; [reflexivity | ]); first [reflexivity | eexists; reflexivity].
Qed.

End CatalogFurther.
